(** * Transition layer editor: the event handlers of [TransitionContent]

    Shallow embedding of
    [apps/builder/app/builder/features/style-panel/sections/transitions/transition-content.tsx].

    The component keeps one piece of local state, [intermediateValue], and
    reacts to UI events by calling [setIntermediateValue], the [onEditLayer]
    prop and [deleteTransitionLayer].  A handler is modelled as the list of
    calls it makes, in order; the state seen by the next render is obtained
    by replaying the [setIntermediateValue] calls of that list.

    [parseTransition], [extractTransitionProperties] and [toValue] come from
    other packages; they are parameters of the development. *)

From Stdlib Require Import List String Ascii Bool ZArith Lia DecimalString.
Import ListNotations.
Local Open Scope string_scope.

(** ** Values of [@webstudio-is/css-engine] that the component touches *)

(** [StyleValue] restricted to the variants the component distinguishes:
    [setValue] tests [value.type !== "unit"], everything else is passed on
    untouched.  The numeric payload of a unit value is never inspected. *)
Inductive StyleValue : Type :=
| UnitValue (value : Z) (unit : string)
| KeywordValue (value : string)
| OtherValue (type : string).

(** [{ type: "tuple", value }] *)
Record TupleValue : Type := mkTuple { tuple_value : list StyleValue }.

(** Result of [parseTransition]: [LayersValue | InvalidValue]. *)
Inductive ParseResult : Type :=
| Layers (value : list TupleValue)
| Invalid (value : string).

(** [StyleUpdateOptions] *)
Record StyleUpdateOptions : Type := mkOptions { isEphemeral : bool }.

(** The component state: [IntermediateStyleValue | InvalidValue | undefined].
    [undefined] is [None]. *)
Inductive BufferValue : Type :=
| IntermediateValue (value : string)
| InvalidValue (value : string).

Definition buffer_text (b : BufferValue) : string :=
  match b with
  | IntermediateValue v => v
  | InvalidValue v => v
  end.

Definition is_invalid (b : BufferValue) : bool :=
  match b with
  | InvalidValue _ => true
  | IntermediateValue _ => false
  end.

Definition State : Type := option BufferValue.

(** ** Objects of type [ExtractedTransitionProperties]

    A JavaScript object is the list of its own properties in insertion
    order.  The TypeScript type admits the four keys below, each optional;
    a property that is present may still hold [undefined] ([None]). *)
Inductive Key : Type := k_property | k_duration | k_delay | k_timing.

Definition key_eqb (a b : Key) : bool :=
  match a, b with
  | k_property, k_property => true
  | k_duration, k_duration => true
  | k_delay, k_delay => true
  | k_timing, k_timing => true
  | _, _ => false
  end.

Definition JsObject : Type := list (Key * option StyleValue).

(** [o[k]]: [undefined] when the key is missing. *)
Fixpoint obj_get (k : Key) (o : JsObject) : option StyleValue :=
  match o with
  | [] => None
  | (k', v) :: rest => if key_eqb k k' then v else obj_get k rest
  end.

(** [o[k] = v]: an existing key keeps its position, a new key goes last. *)
Fixpoint obj_set (k : Key) (v : option StyleValue) (o : JsObject) : JsObject :=
  match o with
  | [] => [(k, v)]
  | (k', v') :: rest =>
      if key_eqb k k' then (k', v) :: rest else (k', v') :: obj_set k v rest
  end.

(** [{ ...a, ...b }]: the properties of [b] are assigned onto a copy of [a],
    in the order [b] lists them. *)
Definition spread (a b : JsObject) : JsObject :=
  fold_left (fun acc kv => obj_set (fst kv) (snd kv) acc) b a.

(** [Object.values(o)] *)
Definition Object_values (o : JsObject) : list (option StyleValue) :=
  map snd o.

(** [.filter((item) => item != null)] *)
Fixpoint filter_non_null (l : list (option StyleValue)) : list StyleValue :=
  match l with
  | [] => []
  | Some v :: rest => v :: filter_non_null rest
  | None :: rest => filter_non_null rest
  end.

(** The value a key is given by an object, if the object has the key at all:
    [None] for a missing key, [Some None] for a key holding [undefined]. *)
Definition provided (k : Key) (o : JsObject) : option (option StyleValue) :=
  fold_left (fun acc kv => if key_eqb k (fst kv) then Some (snd kv) else acc)
            o None.

(** The object literal [{ property, duration, delay, timing }]. *)
Definition fourFields (a b c d : option StyleValue) : JsObject :=
  [(k_property, a); (k_duration, b); (k_delay, c); (k_timing, d)].

(** ** Configured defaults of [./transition-utils]

    [defaultTransitionProperty], [defaultTransitionDuration],
    [defaultTransitionDelay] and [defaultTransitionTimingFunction] are
    imported constants.  The component hands them to the sub-editors as the
    value to display when a field is absent. *)
Record Defaults : Type := mkDefaults {
  defaultTransitionProperty : StyleValue;
  defaultTransitionDuration : StyleValue;
  defaultTransitionDelay : StyleValue;
  defaultTransitionTimingFunction : StyleValue
}.

Definition defaultOf (d : Defaults) (k : Key) : StyleValue :=
  match k with
  | k_property => defaultTransitionProperty d
  | k_duration => defaultTransitionDuration d
  | k_delay => defaultTransitionDelay d
  | k_timing => defaultTransitionTimingFunction d
  end.

(** [property ?? defaultTransitionProperty] and its three siblings: the
    [property], [value], [value] and [timing] props of the sub-editors. *)
Definition displayedField
    (d : Defaults) (current : JsObject) (k : Key) : StyleValue :=
  match obj_get k current with
  | Some v => v
  | None => defaultOf d k
  end.

(** The order in which the object literal of [handlePropertyUpdate] lists
    its keys. *)
Definition fieldOrder : list Key := [k_property; k_duration; k_delay; k_timing].

(** Field [k] after a partial update: the provided value when [params] has
    the key, the current value otherwise. *)
Definition fieldAfterMerge
    (current params : JsObject) (k : Key) : option StyleValue :=
  match provided k params with
  | Some v => v
  | None => obj_get k current
  end.

(** The merge as the specification words it: a provided field replaces the
    current one, an unspecified field keeps its current value and falls back
    to the configured default when the current value is absent; fields that
    are still absent are filtered out. *)
Definition specFieldAfterMerge
    (d : Defaults) (current params : JsObject) (k : Key) : option StyleValue :=
  match provided k params with
  | Some v => v
  | None => Some (displayedField d current k)
  end.

Definition specNewLayer
    (d : Defaults) (current params : JsObject) : TupleValue :=
  mkTuple (filter_non_null (map (specFieldAfterMerge d current params) fieldOrder)).

(** ** Sample collaborators

    Small stand-ins for the imported functions, used to run the handlers on
    concrete inputs.  No general statement below depends on them. *)

Definition sample_tokenText (v : StyleValue) : string :=
  match v with
  | UnitValue n u => NilZero.string_of_int (Z.to_int n) ++ u
  | KeywordValue s => s
  | OtherValue s => s
  end.

(** Tokens of a tuple joined by single spaces. *)
Definition sample_toValue (t : TupleValue) : string :=
  String.concat " " (map sample_tokenText (tuple_value t)).

Fixpoint sample_words (s : string) : list string :=
  match s with
  | EmptyString => [""]
  | String c rest =>
      if Ascii.eqb c " "%char then "" :: sample_words rest
      else match sample_words rest with
           | w :: ws => String c w :: ws
           | [] => [String c ""]
           end
  end.

Definition sample_isDigit (c : Ascii.ascii) : bool :=
  let n := Ascii.nat_of_ascii c in (48 <=? n)%nat && (n <=? 57)%nat.

(** Splits ["200ms"] into [200] and ["ms"]; [None] without a leading digit. *)
Fixpoint sample_number (acc : option Z) (s : string) : option Z * string :=
  match s with
  | EmptyString => (acc, "")
  | String c rest =>
      if sample_isDigit c
      then let d := Z.of_nat (Ascii.nat_of_ascii c - 48) in
           sample_number (Some (match acc with
                                | Some a => 10 * a + d
                                | None => d
                                end)%Z) rest
      else (acc, s)
  end.

Definition sample_token (w : string) : StyleValue :=
  match sample_number None w with
  | (Some n, u) => UnitValue n u
  | (None, _) => KeywordValue w
  end.

Definition sample_isUnit (v : StyleValue) : bool :=
  match v with UnitValue _ _ => true | _ => false end.

(** One layer of space-separated tokens, at most two keywords (property and
    timing) and two times (duration and delay); anything else is invalid. *)
Definition sample_parseTransition (text : string) : ParseResult :=
  let tokens :=
    map sample_token
        (filter (fun w => negb (w =? "")) (sample_words text)) in
  let units := List.length (filter sample_isUnit tokens) in
  let keywords :=
    List.length (filter (fun v => negb (sample_isUnit v)) tokens) in
  if (List.length tokens =? 0)%nat || (2 <? units)%nat || (2 <? keywords)%nat
  then Invalid text
  else Layers [mkTuple tokens].

(** First keyword is the property, second the timing; first time is the
    duration, second the delay. *)
Definition sample_extractTransitionProperties (t : TupleValue) : JsObject :=
  let units := filter sample_isUnit (tuple_value t) in
  let keywords := filter (fun v => negb (sample_isUnit v)) (tuple_value t) in
  [(k_property, nth_error keywords 0); (k_duration, nth_error units 0);
   (k_timing, nth_error keywords 1); (k_delay, nth_error units 1)].

Definition sample_defaults : Defaults :=
  mkDefaults (KeywordValue "opacity") (UnitValue 0 "ms")
             (UnitValue 0 "ms") (KeywordValue "ease").

Definition opacity : StyleValue := KeywordValue "opacity".
Definition ms (n : Z) : StyleValue := UnitValue n "ms".

(** ** The component *)

Section Component.

(** Opaque props handed through to [deleteTransitionLayer]. *)
Context {StyleInfo CreateBatchUpdate : Type}.

(** Collaborators from [@webstudio-is/css-data] and
    [@webstudio-is/css-engine]. *)
Variable parseTransition : string -> ParseResult.
Variable extractTransitionProperties : TupleValue -> JsObject.
Variable toValue : TupleValue -> string.

(** The props the handlers read. *)
Record Props : Type := mkProps {
  index : nat;
  layer : TupleValue;
  propertyValue : string;
  currentStyle : StyleInfo;
  createBatchUpdate : CreateBatchUpdate
}.

(** Argument object of [deleteTransitionLayer]. *)
Record DeleteArgs : Type := mkDeleteArgs {
  del_currentStyle : StyleInfo;
  del_createBatchUpdate : CreateBatchUpdate;
  del_index : nat;
  del_options : StyleUpdateOptions
}.

(** What a handler can do. *)
Inductive Effect : Type :=
| SetIntermediateValue (v : State)
| OnEditLayer (i : nat) (layers : list TupleValue) (options : StyleUpdateOptions)
| DeleteTransitionLayer (args : DeleteArgs)
| StopPropagation
| PreventDefault.

(** [useState(...)] initial value. *)
Definition initialState (p : Props) : State :=
  Some (IntermediateValue (propertyValue p)).

Section Render.

Variable p : Props.
Variable intermediateValue : State.

(** [const { property, timing, delay, duration } =
     extractTransitionProperties(layer)] *)
Definition extracted : JsObject := extractTransitionProperties (layer p).
Definition property : option StyleValue := obj_get k_property extracted.
Definition timing : option StyleValue := obj_get k_timing extracted.
Definition delay : option StyleValue := obj_get k_delay extracted.
Definition duration : option StyleValue := obj_get k_duration extracted.

Definition handleChange (value : string) : list Effect :=
  [SetIntermediateValue (Some (IntermediateValue value))].

Definition handleComplete (options : StyleUpdateOptions) : list Effect :=
  match intermediateValue with
  | None => []
  | Some iv =>
      match parseTransition (buffer_text iv) with
      | Invalid _ =>
          [SetIntermediateValue (Some (InvalidValue (buffer_text iv)))]
      | Layers layers => [OnEditLayer (index p) layers options]
      end
  end.

(** [{ ...{ property, duration, delay, timing }, ...params }] *)
Definition mergedFields (params : JsObject) : JsObject :=
  spread (fourFields property duration delay timing) params.

(** [const newLayer: TupleValue = { type: "tuple", value }] *)
Definition newLayer (params : JsObject) : TupleValue :=
  mkTuple (filter_non_null (Object_values (mergedFields params))).

(** [options] is [None] when the caller leaves the argument out. *)
Definition handlePropertyUpdate
    (params : JsObject) (options : option StyleUpdateOptions)
    : list Effect :=
  let options :=
    match options with
    | Some o => o
    | None => mkOptions false
    end in
  match parseTransition (toValue (newLayer params)) with
  | Invalid _ =>
      [SetIntermediateValue
         (Some (InvalidValue (toValue (newLayer params))))]
  | Layers layers =>
      [SetIntermediateValue
         (Some (IntermediateValue (toValue (newLayer params))));
       OnEditLayer (index p) layers options]
  end.

(** [setValue] of the duration and delay inputs. *)
Definition setUnitField
    (k : Key) (value : option StyleValue)
    (options : option StyleUpdateOptions) : list Effect :=
  match value with
  | Some (UnitValue n u) =>
      handlePropertyUpdate [(k, Some (UnitValue n u))] options
  | _ => []
  end.

(** [onKeyDown] of the text area. *)
Definition onKeyDown (key : string) : list Effect :=
  [StopPropagation]
  ++ (if key =? "Enter"
      then handleComplete (mkOptions false) ++ [PreventDefault]
      else [])
  ++ (if key =? "Escape"
      then match intermediateValue with
           | None => []
           | Some _ =>
               [DeleteTransitionLayer
                  (mkDeleteArgs (currentStyle p) (createBatchUpdate p)
                                (index p) (mkOptions true));
                SetIntermediateValue None;
                PreventDefault]
           end
      else []).

(** Text area attributes: [value] and [color]. *)
Definition textAreaValue : string :=
  match intermediateValue with
  | Some iv => buffer_text iv
  | None => ""
  end.

Definition textAreaColor : option string :=
  match intermediateValue with
  | Some iv => if is_invalid iv then Some "error" else None
  | None => None
  end.

End Render.

(** ** Events and the resulting state machine *)

(** The callbacks the rendered tree hands out. *)
Inductive Event : Type :=
| TextAreaChange (value : string)
| TextAreaBlur
| TextAreaKeyDown (key : string)
| PropertySelection (params : JsObject) (options : option StyleUpdateOptions)
| TimingSelection (params : JsObject) (options : option StyleUpdateOptions)
| DurationDelete
| DurationSet (value : option StyleValue) (options : option StyleUpdateOptions)
| DelayDelete
| DelaySet (value : option StyleValue) (options : option StyleUpdateOptions).

Definition onEvent (p : Props) (iv : State) (e : Event) : list Effect :=
  match e with
  | TextAreaChange value => handleChange value
  | TextAreaBlur => handleComplete p iv (mkOptions true)
  | TextAreaKeyDown key => onKeyDown p iv key
  | PropertySelection params options => handlePropertyUpdate p params options
  | TimingSelection params options => handlePropertyUpdate p params options
  | DurationDelete =>
      handlePropertyUpdate p [(k_duration, duration p)] None
  | DurationSet value options => setUnitField p k_duration value options
  | DelayDelete =>
      handlePropertyUpdate p [(k_delay, delay p)] None
  | DelaySet value options => setUnitField p k_delay value options
  end.

(** The state of the next render: the last [setIntermediateValue] wins. *)
Definition applyEffects (iv : State) (tr : list Effect) : State :=
  fold_left (fun s e => match e with
                        | SetIntermediateValue v => v
                        | _ => s
                        end) tr iv.

Definition step (p : Props) (iv : State) (e : Event) : State :=
  applyEffects iv (onEvent p iv e).

(** A run of the component: each event arrives with the props of the
    render it happens in.  Returns the final state and every call made. *)
Fixpoint run (iv : State) (inputs : list (Props * Event))
    : State * list Effect :=
  match inputs with
  | [] => (iv, [])
  | (p, e) :: rest =>
      let tr := onEvent p iv e in
      let '(iv', tr') := run (applyEffects iv tr) rest in
      (iv', (tr ++ tr')%list)
  end.

(** The states rendered after each event of a run. *)
Fixpoint runStates (iv : State) (inputs : list (Props * Event))
    : list State :=
  match inputs with
  | [] => []
  | (p, e) :: rest =>
      let iv' := step p iv e in iv' :: runStates iv' rest
  end.

(** States a mounted component can be in. *)
Inductive reachable (p0 : Props) : State -> Prop :=
| reachable_init : reachable p0 (initialState p0)
| reachable_step : forall iv p e,
    reachable p0 iv -> reachable p0 (step p iv e).

(** Observations on a list of calls. *)
Fixpoint commits (tr : list Effect)
    : list (nat * list TupleValue * StyleUpdateOptions) :=
  match tr with
  | [] => []
  | OnEditLayer i layers options :: rest => (i, layers, options) :: commits rest
  | _ :: rest => commits rest
  end.

Fixpoint deletions (tr : list Effect) : list DeleteArgs :=
  match tr with
  | [] => []
  | DeleteTransitionLayer args :: rest => args :: deletions rest
  | _ :: rest => deletions rest
  end.

Fixpoint stateUpdates (tr : list Effect) : list State :=
  match tr with
  | [] => []
  | SetIntermediateValue v :: rest => v :: stateUpdates rest
  | _ :: rest => stateUpdates rest
  end.

(** The layers of a commit. *)
Definition commitLayers (c : nat * list TupleValue * StyleUpdateOptions)
    : list TupleValue :=
  snd (fst c).

(** Events of the text area that carry no text: blur and key presses. *)
Definition isKeyOrBlur (e : Event) : bool :=
  match e with
  | TextAreaBlur => true
  | TextAreaKeyDown _ => true
  | _ => false
  end.


(** ** Properties of the object model *)

Lemma key_eqb_eq : forall a b, key_eqb a b = true <-> a = b.
Proof. intros [] []; simpl; split; intro H; try reflexivity; discriminate. Qed.

Lemma key_eqb_refl : forall k, key_eqb k k = true.
Proof. intros []; reflexivity. Qed.

Lemma obj_set_fourFields : forall k v a b c d,
  obj_set k v (fourFields a b c d) =
  fourFields (if key_eqb k_property k then v else a)
             (if key_eqb k_duration k then v else b)
             (if key_eqb k_delay k then v else c)
             (if key_eqb k_timing k then v else d).
Proof. intros [] v a b c d; reflexivity. Qed.

Lemma provided_cons : forall k k' v o,
  provided k ((k', v) :: o) =
  match provided k o with
  | Some w => Some w
  | None => if key_eqb k k' then Some v else None
  end.
Proof.
  intros k k' v o. unfold provided. simpl.
  generalize (if key_eqb k k' then Some v else @None (option StyleValue)).
  induction o as [|[k2 v2] o IH]; intros acc; simpl.
  - destruct acc; reflexivity.
  - rewrite IH.
    rewrite (IH (if key_eqb k k2 then Some v2 else None)).
    destruct (fold_left _ o None); [reflexivity|].
    destruct (key_eqb k k2); [reflexivity|]. destruct acc; reflexivity.
Qed.

Lemma spread_cons : forall a k v rest,
  spread a ((k, v) :: rest) = spread (obj_set k v a) rest.
Proof. reflexivity. Qed.

(** Spreading any [params] over the four-key literal keeps the four keys in
    place; each slot holds the last value [params] assigns to it, or the
    value it had. *)
Lemma spread_fourFields : forall params a b c d,
  spread (fourFields a b c d) params =
  fourFields
    (match provided k_property params with Some v => v | None => a end)
    (match provided k_duration params with Some v => v | None => b end)
    (match provided k_delay params with Some v => v | None => c end)
    (match provided k_timing params with Some v => v | None => d end).
Proof.
  induction params as [|[k v] rest IH]; intros a b c d.
  - reflexivity.
  - rewrite spread_cons, obj_set_fourFields, IH, !provided_cons.
    destruct (provided k_property rest), (provided k_duration rest),
      (provided k_delay rest), (provided k_timing rest), k; reflexivity.
Qed.

Lemma filter_non_null_In : forall l v,
  In v (filter_non_null l) <-> In (Some v) l.
Proof.
  induction l as [|[w|] l IH]; intros v; simpl.
  - tauto.
  - rewrite IH. split; intros [H|H]; auto; left; congruence.
  - rewrite IH. split; [auto|]. intros [H|H]; [discriminate|exact H].
Qed.

Lemma filter_non_null_length : forall l,
  (List.length (filter_non_null l) <= List.length l)%nat.
Proof. induction l as [|[w|] l IH]; simpl; lia. Qed.

(** ** Properties of call lists *)

Lemma commits_app : forall tr1 tr2 : list Effect,
  commits (tr1 ++ tr2) = (commits tr1 ++ commits tr2)%list.
Proof.
  induction tr1 as [|e tr1 IH]; intros tr2; [reflexivity|].
  destruct e; simpl; rewrite IH; reflexivity.
Qed.

Lemma deletions_app : forall tr1 tr2 : list Effect,
  deletions (tr1 ++ tr2) = (deletions tr1 ++ deletions tr2)%list.
Proof.
  induction tr1 as [|e tr1 IH]; intros tr2; [reflexivity|].
  destruct e; simpl; rewrite IH; reflexivity.
Qed.

Lemma run_cons : forall iv p e rest,
  run iv ((p, e) :: rest) =
  (fst (run (step p iv e) rest),
   (onEvent p iv e ++ snd (run (step p iv e) rest))%list).
Proof.
  intros iv p e rest. simpl. unfold step.
  destruct (run (applyEffects iv (onEvent p iv e)) rest); reflexivity.
Qed.

Lemma last_nonempty_default : forall (A : Type) (l : list A) (a d d' : A),
  last (a :: l) d = last (a :: l) d'.
Proof.
  intros A l. induction l as [|b l IH]; intros a d d'; [reflexivity|].
  change (last (b :: l) d = last (b :: l) d'). apply IH.
Qed.

(** The final state of a run is the last state rendered. *)
Lemma run_final_state : forall inputs iv,
  fst (run iv inputs) = last (runStates iv inputs) iv.
Proof.
  induction inputs as [|[p e] rest IH]; intros iv; [reflexivity|].
  rewrite run_cons. cbn [fst runStates]. rewrite IH.
  destruct (runStates (step p iv e) rest) as [|s l] eqn:E; [reflexivity|].
  change (last (s :: l) (step p iv e) = last (step p iv e :: s :: l) iv).
  change (last (step p iv e :: s :: l) iv) with (last (s :: l) iv).
  apply last_nonempty_default.
Qed.

(** ** Properties of the handlers *)

Lemma mergedFields_fourFields : forall p params,
  mergedFields p params =
  fourFields (fieldAfterMerge (extracted p) params k_property)
             (fieldAfterMerge (extracted p) params k_duration)
             (fieldAfterMerge (extracted p) params k_delay)
             (fieldAfterMerge (extracted p) params k_timing).
Proof.
  intros p params. unfold mergedFields. rewrite spread_fourFields.
  reflexivity.
Qed.

Lemma mergedFields_get : forall p params k,
  obj_get k (mergedFields p params) = fieldAfterMerge (extracted p) params k.
Proof.
  intros p params k. rewrite mergedFields_fourFields.
  destruct k; reflexivity.
Qed.

Lemma newLayer_merged : forall p params,
  newLayer p params =
  mkTuple (filter_non_null
             (map (fieldAfterMerge (extracted p) params) fieldOrder)).
Proof.
  intros p params. unfold newLayer. rewrite mergedFields_fourFields.
  reflexivity.
Qed.

(** Every event deletes at most once, and only as an ephemeral update. *)
Lemma onEvent_deletions : forall p iv e,
  deletions (onEvent p iv e) = [] \/
  deletions (onEvent p iv e) =
  [mkDeleteArgs (currentStyle p) (createBatchUpdate p) (index p)
                (mkOptions true)].
Proof.
  intros p iv e.
  assert (Hc : forall o, deletions (handleComplete p iv o) = []).
  { intros o. unfold handleComplete. destruct iv as [b|]; [|reflexivity].
    destruct (parseTransition (buffer_text b)); reflexivity. }
  assert (Hu : forall params o, deletions (handlePropertyUpdate p params o) = []).
  { intros params o. unfold handlePropertyUpdate.
    destruct (parseTransition (toValue (newLayer p params))); reflexivity. }
  assert (Hs : forall k v o, deletions (setUnitField p k v o) = []).
  { intros k v o. unfold setUnitField. destruct v as [[]|]; auto. }
  destruct e; simpl; auto.
  unfold onKeyDown. rewrite !deletions_app.
  destruct (key =? "Enter"); destruct (key =? "Escape");
    try rewrite deletions_app; try rewrite Hc; simpl; auto;
    destruct iv; simpl; auto.
Qed.

Lemma applyEffects_app : forall (tr1 tr2 : list Effect) iv,
  applyEffects iv (tr1 ++ tr2) = applyEffects (applyEffects iv tr1) tr2.
Proof. intros tr1 tr2 iv. unfold applyEffects. apply fold_left_app. Qed.

(** What one event can do to the state: nothing, clear it, store an
    intermediate text, or store as invalid a text the parser rejects. *)
Lemma step_cases : forall p iv e,
  step p iv e = iv \/
  step p iv e = None \/
  (exists t, step p iv e = Some (IntermediateValue t)) \/
  (exists t v, step p iv e = Some (InvalidValue t)
               /\ parseTransition t = Invalid v).
Proof.
  intros p iv e. unfold step.
  assert (Hc : forall o,
            applyEffects iv (handleComplete p iv o) = iv \/
            exists t v, applyEffects iv (handleComplete p iv o)
                        = Some (InvalidValue t)
                        /\ parseTransition t = Invalid v).
  { intros o. unfold handleComplete. destruct iv as [b|]; [|left; reflexivity].
    destruct (parseTransition (buffer_text b)) as [ls|v] eqn:E.
    - left. reflexivity.
    - right. exists (buffer_text b), v. split; [reflexivity|exact E]. }
  assert (Hu : forall params o,
            (exists t, applyEffects iv (handlePropertyUpdate p params o)
                       = Some (IntermediateValue t)) \/
            exists t v, applyEffects iv (handlePropertyUpdate p params o)
                        = Some (InvalidValue t)
                        /\ parseTransition t = Invalid v).
  { intros params o. unfold handlePropertyUpdate.
    destruct (parseTransition (toValue (newLayer p params))) as [ls|v] eqn:E.
    - left. eexists. reflexivity.
    - right. exists (toValue (newLayer p params)), v.
      split; [reflexivity|exact E]. }
  assert (Hs : forall k value o,
            applyEffects iv (setUnitField p k value o) = iv \/
            (exists t, applyEffects iv (setUnitField p k value o)
                       = Some (IntermediateValue t)) \/
            exists t v, applyEffects iv (setUnitField p k value o)
                        = Some (InvalidValue t)
                        /\ parseTransition t = Invalid v).
  { intros k value o. unfold setUnitField.
    destruct value as [[n u|w|w]|]; try (left; reflexivity).
    right. apply Hu. }
  destruct e; cbn [onEvent].
  - right. right. left. eexists. reflexivity.
  - destruct (Hc (mkOptions true)) as [H|H]; auto.
  - unfold onKeyDown. rewrite !applyEffects_app.
    change (applyEffects iv [StopPropagation]) with iv.
    destruct (key =? "Enter").
    + rewrite applyEffects_app.
      destruct (key =? "Escape").
      * destruct iv as [b|].
        -- right. left. unfold handleComplete.
           destruct (parseTransition (buffer_text b)); reflexivity.
        -- left. reflexivity.
      * destruct (Hc (mkOptions false)) as [H|[t [v [H1 H2]]]].
        -- left. cbn [applyEffects fold_left] in *. exact H.
        -- right. right. right. exists t, v. split; [|exact H2].
           cbn [applyEffects fold_left] in *. exact H1.
    + destruct (key =? "Escape"); [|left; reflexivity].
      destruct iv as [b|]; [right; left|left]; reflexivity.
  - destruct (Hu params options) as [H|H]; auto.
  - destruct (Hu params options) as [H|H]; auto.
  - destruct (Hu [(k_duration, duration p)] None) as [H|H]; auto.
  - destruct (Hs k_duration value options) as [H|[H|H]]; auto.
  - destruct (Hu [(k_delay, delay p)] None) as [H|H]; auto.
  - destruct (Hs k_delay value options) as [H|[H|H]]; auto.
Qed.

(** A mounted component never holds as invalid a text the parser accepts. *)
Lemma reachable_invalid_unparsable : forall p0 iv,
  reachable p0 iv ->
  forall t, iv = Some (InvalidValue t) -> exists v, parseTransition t = Invalid v.
Proof.
  intros p0 iv H. induction H as [|iv p e H IH]; intros t Ht.
  - discriminate Ht.
  - destruct (step_cases p iv e) as [E|[E|[[t' E]|[t' [v [E Hv]]]]]].
    + rewrite E in Ht. apply IH. exact Ht.
    + rewrite E in Ht. discriminate Ht.
    + rewrite E in Ht. discriminate Ht.
    + rewrite E in Ht. injection Ht as <-. exists v. exact Hv.
Qed.

(** ** The specified behaviour of the editor *)

(** C1 (as amended): [handlePropertyUpdate] serializes the merge of [params]
    over the current extracted fields.  A field that [params] provides takes
    the provided value, a field it does not provide keeps its current value,
    and the tuple holds exactly the merged values that are present: a field
    whose merged value is absent is left out, no configured default takes
    its place.  The buffer receives the serialization of that tuple. *)
Theorem handlePropertyUpdate_merges_fields : forall p params options,
  let merged := fieldAfterMerge (extracted p) params in
  let text := toValue (mkTuple (filter_non_null (map merged fieldOrder))) in
  (forall k v, provided k params = Some v ->
     obj_get k (mergedFields p params) = v) /\
  (forall k, provided k params = None ->
     obj_get k (mergedFields p params) = obj_get k (extracted p)) /\
  (forall v, In v (tuple_value (newLayer p params)) <->
             exists k, obj_get k (mergedFields p params) = Some v) /\
  toValue (newLayer p params) = text /\
  exists b, stateUpdates (handlePropertyUpdate p params options) = [Some b]
            /\ buffer_text b = text.
Proof.
  intros p params options merged text.
  split; [|split; [|split; [|split]]].
  - intros k v H. rewrite mergedFields_get. unfold fieldAfterMerge.
    rewrite H. reflexivity.
  - intros k H. rewrite mergedFields_get. unfold fieldAfterMerge.
    rewrite H. reflexivity.
  - intros v. rewrite newLayer_merged. cbn [tuple_value].
    rewrite filter_non_null_In, in_map_iff. split.
    + intros [k [H _]]. exists k. rewrite mergedFields_get. exact H.
    + intros [k H]. exists k. rewrite mergedFields_get in H.
      split; [exact H|]. destruct k; simpl; auto.
  - rewrite newLayer_merged. reflexivity.
  - unfold handlePropertyUpdate. rewrite newLayer_merged. fold merged text.
    destruct (parseTransition text); eexists; split; reflexivity.
Qed.

(** C2: when [parseTransition] rejects the text, both [handleComplete] (on
    the text of the buffer) and [handlePropertyUpdate] (on the serialized
    tuple) make exactly one call, [setIntermediateValue] with an invalid
    value holding that same text; [onEditLayer] is not called. *)
Theorem invalid_parse_marks_buffer : forall text v,
  parseTransition text = Invalid v ->
  (forall p b o, buffer_text b = text ->
     let tr := handleComplete p (Some b) o in
     tr = [SetIntermediateValue (Some (InvalidValue text))] /\
     applyEffects (Some b) tr = Some (InvalidValue text) /\
     commits tr = [] /\ deletions tr = []) /\
  (forall p iv params options, toValue (newLayer p params) = text ->
     let tr := handlePropertyUpdate p params options in
     tr = [SetIntermediateValue (Some (InvalidValue text))] /\
     applyEffects iv tr = Some (InvalidValue text) /\
     commits tr = [] /\ deletions tr = []).
Proof.
  intros text v Hparse. split.
  - intros p b o Hb tr. subst tr. unfold handleComplete.
    rewrite Hb, Hparse. repeat split.
  - intros p iv params options Ht tr. subst tr. unfold handlePropertyUpdate.
    rewrite Ht, Hparse. repeat split.
Qed.

(** C3: [handleComplete] does nothing when the state is [undefined];
    otherwise, when the text of the buffer parses, it calls [onEditLayer]
    with the index, the parsed layers and the options it was given, and
    leaves the buffer as it is. *)
Theorem handleComplete_commit : forall p o,
  handleComplete p None o = [] /\
  forall b layers, parseTransition (buffer_text b) = Layers layers ->
    handleComplete p (Some b) o = [OnEditLayer (index p) layers o] /\
    applyEffects (Some b) (handleComplete p (Some b) o) = Some b.
Proof.
  intros p o. split; [reflexivity|].
  intros b layers H. unfold handleComplete. rewrite H. split; reflexivity.
Qed.

(** C4: [handleChange] stores the new text as an intermediate value without
    parsing it.  Along any sequence of text edits, whatever the texts and
    the parser, the state after each edit is the intermediate value of that
    edit, and neither [onEditLayer] nor [deleteTransitionLayer] is called. *)
Theorem handleChange_never_validates :
  forall (iv : State) (edits : list (Props * string)),
  let inputs := map (fun pt => (fst pt, TextAreaChange (snd pt))) edits in
  (forall value,
     handleChange value =
     [SetIntermediateValue (Some (IntermediateValue value))]) /\
  runStates iv inputs =
    map (fun pt => Some (IntermediateValue (snd pt))) edits /\
  fst (run iv inputs) = last (runStates iv inputs) iv /\
  commits (snd (run iv inputs)) = [] /\
  deletions (snd (run iv inputs)) = [].
Proof.
  intros iv edits inputs. subst inputs.
  split; [reflexivity|]. split; [|split; [apply run_final_state|]].
  - revert iv. induction edits as [|[p t] rest IH]; intros iv; [reflexivity|].
    cbn [map runStates fst snd]. rewrite IH. reflexivity.
  - revert iv. induction edits as [|[p t] rest IH]; intros iv.
    + split; reflexivity.
    + cbn [map fst snd]. rewrite run_cons. cbn [snd].
      rewrite commits_app, deletions_app.
      destruct (IH (step p iv (TextAreaChange t))) as [Hc Hd].
      rewrite Hc, Hd. split; reflexivity.
Qed.

(** C5: on Escape with a buffer, [deleteTransitionLayer] is called exactly
    once, for the index of this layer, and then the state is set to
    [undefined]; on Escape without a buffer nothing is deleted, nothing is
    committed and the state is not touched. *)
Theorem escape_deletes_once : forall p,
  (forall b,
     onEvent p (Some b) (TextAreaKeyDown "Escape") =
     [StopPropagation;
      DeleteTransitionLayer
        (mkDeleteArgs (currentStyle p) (createBatchUpdate p) (index p)
                      (mkOptions true));
      SetIntermediateValue None;
      PreventDefault] /\
     List.length (deletions (onEvent p (Some b) (TextAreaKeyDown "Escape")))
       = 1%nat /\
     map del_index (deletions (onEvent p (Some b) (TextAreaKeyDown "Escape")))
       = [index p] /\
     commits (onEvent p (Some b) (TextAreaKeyDown "Escape")) = [] /\
     step p (Some b) (TextAreaKeyDown "Escape") = None) /\
  onEvent p None (TextAreaKeyDown "Escape") = [StopPropagation] /\
  deletions (onEvent p None (TextAreaKeyDown "Escape")) = [] /\
  commits (onEvent p None (TextAreaKeyDown "Escape")) = [] /\
  stateUpdates (onEvent p None (TextAreaKeyDown "Escape")) = [] /\
  step p None (TextAreaKeyDown "Escape") = None.
Proof.
  intros p. split; [intros b|]; repeat split.
Qed.

(** C6: with a buffer whose text parses, blur and Enter both call
    [onEditLayer] once with the same index and the same parsed layers and
    leave the buffer alone; blur passes [isEphemeral: true], Enter passes
    [isEphemeral: false], and [handleComplete] hands on whatever options it
    receives. *)
Theorem blur_and_enter_commit_alike : forall p b layers,
  parseTransition (buffer_text b) = Layers layers ->
  commits (onEvent p (Some b) TextAreaBlur)
    = [(index p, layers, mkOptions true)] /\
  commits (onEvent p (Some b) (TextAreaKeyDown "Enter"))
    = [(index p, layers, mkOptions false)] /\
  step p (Some b) TextAreaBlur = Some b /\
  step p (Some b) (TextAreaKeyDown "Enter") = Some b /\
  forall o, commits (handleComplete p (Some b) o) = [(index p, layers, o)].
Proof.
  intros p b layers H.
  unfold step, onEvent, onKeyDown, handleComplete. cbn [String.eqb Ascii.eqb Bool.eqb].
  rewrite H. repeat split.
Qed.

(** C7: whatever keys [params] holds and in whatever order, the merged
    object lists its keys as property, duration, delay, timing, and each
    key holds the provided value when [params] has the key and the current
    extracted value otherwise; the tuple handed to the serializer is those
    four values in that order, without the absent ones.  With no field
    provided it is the current property, duration, delay and timing. *)
Theorem newLayer_field_order : forall p params,
  map fst (mergedFields p params) = fieldOrder /\
  Object_values (mergedFields p params) =
    map (fieldAfterMerge (extracted p) params) fieldOrder /\
  (forall k, obj_get k (mergedFields p params) =
             fieldAfterMerge (extracted p) params k) /\
  tuple_value (newLayer p params) =
    filter_non_null
      [fieldAfterMerge (extracted p) params k_property;
       fieldAfterMerge (extracted p) params k_duration;
       fieldAfterMerge (extracted p) params k_delay;
       fieldAfterMerge (extracted p) params k_timing] /\
  tuple_value (newLayer p []) =
    filter_non_null [property p; duration p; delay p; timing p] /\
  Object_values (mergedFields p params) =
    map (fun k => obj_get k (mergedFields p params)) fieldOrder /\
  tuple_value (newLayer p params) =
    filter_non_null
      (map (fun k => obj_get k (mergedFields p params)) fieldOrder) /\
  (List.length (tuple_value (newLayer p params)) <= 4)%nat.
Proof.
  intros p params.
  assert (Hv : Object_values (mergedFields p params) =
               map (fun k => obj_get k (mergedFields p params)) fieldOrder).
  { rewrite mergedFields_fourFields. reflexivity. }
  split; [|split; [|split; [|split; [|split; [|split; [exact Hv|split]]]]]].
  - rewrite mergedFields_fourFields. reflexivity.
  - rewrite mergedFields_fourFields. reflexivity.
  - apply mergedFields_get.
  - rewrite newLayer_merged. reflexivity.
  - rewrite newLayer_merged. reflexivity.
  - unfold newLayer. cbn [tuple_value]. rewrite Hv. reflexivity.
  - unfold newLayer. cbn [tuple_value]. rewrite Hv.
    apply (filter_non_null_length
             (map (fun k => obj_get k (mergedFields p params)) fieldOrder)).
Qed.

(** C8: the text area shows the text of the buffer, or the empty string
    when there is none, and is coloured as an error exactly when the buffer
    is an invalid value.  A commit request never alters the text shown, and
    after a field edit the text shown is the serialized tuple, valid or
    not. *)
Theorem textArea_shows_buffer :
  forall (iv : State) p b o params options,
  textAreaValue iv =
    match iv with
    | Some (IntermediateValue t) => t
    | Some (InvalidValue t) => t
    | None => ""
    end /\
  (textAreaColor iv = Some "error" <-> exists t, iv = Some (InvalidValue t)) /\
  (textAreaColor iv = None <-> forall t, iv <> Some (InvalidValue t)) /\
  textAreaValue (applyEffects (Some b) (handleComplete p (Some b) o))
    = textAreaValue (Some b) /\
  textAreaValue (applyEffects iv (handlePropertyUpdate p params options))
    = toValue (newLayer p params).
Proof.
  intros iv p b o params options.
  split; [|split; [|split; [|split]]].
  - destruct iv as [[t|t]|]; reflexivity.
  - split.
    + destruct iv as [[t|t]|]; simpl; intros H; try discriminate.
      exists t. reflexivity.
    + intros [t H]. subst iv. reflexivity.
  - split.
    + destruct iv as [[t|t]|]; simpl; intros H t'; discriminate.
    + destruct iv as [[t|t]|]; simpl; intros H; try reflexivity.
      exfalso. apply (H t). reflexivity.
  - unfold handleComplete. destruct (parseTransition (buffer_text b));
      reflexivity.
  - unfold handlePropertyUpdate.
    destruct (parseTransition (toValue (newLayer p params))); reflexivity.
Qed.

(** C9: a call of [handlePropertyUpdate] without the options argument
    commits with [isEphemeral: false]; so do the two [deleteProperty]
    callbacks and every picker or input callback that leaves the options
    out. *)
Theorem handlePropertyUpdate_default_options : forall p iv params value,
  commits (handlePropertyUpdate p params None) =
    match parseTransition (toValue (newLayer p params)) with
    | Layers layers => [(index p, layers, mkOptions false)]
    | Invalid _ => []
    end /\
  Forall (fun c => snd c = mkOptions false)
         (commits (handlePropertyUpdate p params None)) /\
  Forall (fun c => snd c = mkOptions false)
         (commits (onEvent p iv DurationDelete)) /\
  Forall (fun c => snd c = mkOptions false)
         (commits (onEvent p iv DelayDelete)) /\
  Forall (fun c => snd c = mkOptions false)
         (commits (onEvent p iv (PropertySelection params None))) /\
  Forall (fun c => snd c = mkOptions false)
         (commits (onEvent p iv (TimingSelection params None))) /\
  Forall (fun c => snd c = mkOptions false)
         (commits (onEvent p iv (DurationSet value None))) /\
  Forall (fun c => snd c = mkOptions false)
         (commits (onEvent p iv (DelaySet value None))).
Proof.
  intros p iv params value.
  assert (H : forall q,
            Forall (fun c : nat * list TupleValue * StyleUpdateOptions =>
                      snd c = mkOptions false)
                   (commits (handlePropertyUpdate p q None))).
  { intros q. unfold handlePropertyUpdate.
    destruct (parseTransition (toValue (newLayer p q))); simpl;
      repeat constructor. }
  split; [|repeat split; try apply H].
  - unfold handlePropertyUpdate.
    destruct (parseTransition (toValue (newLayer p params))); reflexivity.
  - cbn [onEvent]. unfold setUnitField.
    destruct value as [[]|]; try apply H; constructor.
  - cbn [onEvent]. unfold setUnitField.
    destruct value as [[]|]; try apply H; constructor.
Qed.

(** C10: every [deleteTransitionLayer] call of every run of the component
    carries [isEphemeral: true]. *)
Theorem escape_deletion_is_ephemeral :
  forall (iv : State) (inputs : list (Props * Event)) p b,
  Forall (fun d => del_options d = mkOptions true)
         (deletions (snd (run iv inputs))) /\
  map del_options (deletions (onEvent p (Some b) (TextAreaKeyDown "Escape")))
    = [mkOptions true].
Proof.
  intros iv inputs p b. split; [|reflexivity].
  revert iv. induction inputs as [|[q e] rest IH]; intros iv.
  - constructor.
  - rewrite run_cons. cbn [snd]. rewrite deletions_app.
    apply Forall_app. split; [|apply IH].
    destruct (onEvent_deletions q iv e) as [H|H]; rewrite H;
      repeat constructor.
Qed.

(** ** Further properties of the handlers *)

Lemma enter_is_not_escape : forall key,
  (key =? "Enter") = true -> (key =? "Escape") = false.
Proof.
  intros key H. apply String.eqb_eq in H. subst key. reflexivity.
Qed.

Lemma stateUpdates_app : forall tr1 tr2 : list Effect,
  stateUpdates (tr1 ++ tr2) = (stateUpdates tr1 ++ stateUpdates tr2)%list.
Proof.
  induction tr1 as [|e tr1 IH]; intros tr2; [reflexivity|].
  destruct e; simpl; rewrite IH; reflexivity.
Qed.

(** An update of one key with the value the key already has changes no
    field. *)
Lemma newLayer_same_value : forall p k,
  newLayer p [(k, obj_get k (extracted p))] = newLayer p [].
Proof.
  intros p k. rewrite !newLayer_merged. unfold fieldAfterMerge, provided.
  destruct k; reflexivity.
Qed.

Lemma newLayer_no_params : forall p,
  tuple_value (newLayer p []) =
  filter_non_null [property p; duration p; delay p; timing p].
Proof. intros p. rewrite newLayer_merged. reflexivity. Qed.

(** X1: the [deleteProperty] callbacks of the duration and delay inputs
    delete nothing.  They pass the current value of the field back, so the
    tuple is the current fields, property, duration, delay, timing without
    the absent ones, and the calls made are those of an update that provides
    no field. *)
Theorem deleteProperty_keeps_fields : forall p iv,
  tuple_value (newLayer p [(k_duration, duration p)]) =
    filter_non_null [property p; duration p; delay p; timing p] /\
  tuple_value (newLayer p [(k_delay, delay p)]) =
    filter_non_null [property p; duration p; delay p; timing p] /\
  onEvent p iv DurationDelete = handlePropertyUpdate p [] None /\
  onEvent p iv DelayDelete = handlePropertyUpdate p [] None.
Proof.
  intros p iv.
  assert (Hd : newLayer p [(k_duration, duration p)] = newLayer p [])
    by apply (newLayer_same_value p k_duration).
  assert (Hl : newLayer p [(k_delay, delay p)] = newLayer p [])
    by apply (newLayer_same_value p k_delay).
  split; [|split; [|split]].
  - rewrite Hd. apply newLayer_no_params.
  - rewrite Hl. apply newLayer_no_params.
  - cbn [onEvent]. unfold handlePropertyUpdate. rewrite Hd. reflexivity.
  - cbn [onEvent]. unfold handlePropertyUpdate. rewrite Hl. reflexivity.
Qed.

(** X2: [setValue] of the duration and delay inputs.  Given [undefined]
    or a value that is not a unit value it makes no call at all.  Given a
    unit value it is the field edit with that one field and the options it
    received: it always sets the buffer, the duration input replaces the
    duration and keeps property, delay and timing as they are, the delay
    input replaces the delay and keeps the other three. *)
Theorem setValue_touches_one_field : forall p iv value options,
  match value with
  | Some (UnitValue n u) =>
      onEvent p iv (DurationSet value options) =
        handlePropertyUpdate p [(k_duration, Some (UnitValue n u))] options /\
      onEvent p iv (DelaySet value options) =
        handlePropertyUpdate p [(k_delay, Some (UnitValue n u))] options /\
      stateUpdates (onEvent p iv (DurationSet value options)) <> [] /\
      stateUpdates (onEvent p iv (DelaySet value options)) <> [] /\
      tuple_value (newLayer p [(k_duration, Some (UnitValue n u))]) =
        filter_non_null
          [property p; Some (UnitValue n u); delay p; timing p] /\
      tuple_value (newLayer p [(k_delay, Some (UnitValue n u))]) =
        filter_non_null
          [property p; duration p; Some (UnitValue n u); timing p]
  | _ =>
      onEvent p iv (DurationSet value options) = [] /\
      onEvent p iv (DelaySet value options) = []
  end.
Proof.
  intros p iv value options.
  destruct value as [[n u|w|w]|]; try (split; reflexivity).
  cbn [onEvent setUnitField].
  split; [reflexivity|]. split; [reflexivity|].
  assert (Hs : forall q, stateUpdates (handlePropertyUpdate p q options) <> []).
  { intros q. unfold handlePropertyUpdate.
    destruct (parseTransition (toValue (newLayer p q))); discriminate. }
  split; [apply Hs|]. split; [apply Hs|].
  split; rewrite newLayer_merged; reflexivity.
Qed.

(** X3: options given to a field edit are handed to [onEditLayer]
    unchanged, by the pickers and by the duration and delay inputs. *)
Theorem field_edit_passes_options : forall p iv params value o,
  Forall (fun c => snd c = o)
         (commits (onEvent p iv (PropertySelection params (Some o)))) /\
  Forall (fun c => snd c = o)
         (commits (onEvent p iv (TimingSelection params (Some o)))) /\
  Forall (fun c => snd c = o)
         (commits (onEvent p iv (DurationSet value (Some o)))) /\
  Forall (fun c => snd c = o)
         (commits (onEvent p iv (DelaySet value (Some o)))).
Proof.
  intros p iv params value o.
  assert (H : forall q,
            Forall (fun c : nat * list TupleValue * StyleUpdateOptions =>
                      snd c = o)
                   (commits (handlePropertyUpdate p q (Some o)))).
  { intros q. unfold handlePropertyUpdate.
    destruct (parseTransition (toValue (newLayer p q))); simpl;
      repeat constructor. }
  split; [apply H|]. split; [apply H|].
  split; cbn [onEvent]; unfold setUnitField;
    destruct value as [[]|]; try apply H; constructor.
Qed.


(** X4: the buffer is cleared by the Escape key only.  If an event leaves
    the state [undefined], the state was [undefined] before or the event is
    a press of Escape; typing, commit requests and field edits never clear
    it. *)
Theorem buffer_cleared_only_by_escape : forall p iv e,
  step p iv e = None ->
  iv = None \/ e = TextAreaKeyDown "Escape".
Proof.
  intros p iv e H.
  destruct (step_cases p iv e) as [E|[E|[[t E]|[t [v [E _]]]]]];
    try (rewrite E in H; discriminate H).
  - left. rewrite <- E. exact H.
  - clear H. destruct iv as [b|]; [|left; reflexivity]. right.
    unfold step in E. destruct e; cbn [onEvent] in E.
    + discriminate E.
    + unfold handleComplete in E.
      destruct (parseTransition (buffer_text b)); discriminate E.
    + destruct (key =? "Escape") eqn:K.
      * apply String.eqb_eq in K. subst key. reflexivity.
      * exfalso. unfold onKeyDown in E. rewrite K in E.
        rewrite !applyEffects_app in E.
        destruct (key =? "Enter").
        -- rewrite applyEffects_app in E. unfold handleComplete in E.
           destruct (parseTransition (buffer_text b)); discriminate E.
        -- discriminate E.
    + unfold handlePropertyUpdate in E.
      destruct (parseTransition (toValue (newLayer p params)));
        discriminate E.
    + unfold handlePropertyUpdate in E.
      destruct (parseTransition (toValue (newLayer p params)));
        discriminate E.
    + unfold handlePropertyUpdate in E.
      destruct (parseTransition
                  (toValue (newLayer p [(k_duration, duration p)])));
        discriminate E.
    + unfold setUnitField, handlePropertyUpdate in E.
      destruct value as [[n u|w|w]|]; try discriminate E.
      destruct (parseTransition
                  (toValue (newLayer p [(k_duration, Some (UnitValue n u))])));
        discriminate E.
    + unfold handlePropertyUpdate in E.
      destruct (parseTransition
                  (toValue (newLayer p [(k_delay, delay p)])));
        discriminate E.
    + unfold setUnitField, handlePropertyUpdate in E.
      destruct value as [[n u|w|w]|]; try discriminate E.
      destruct (parseTransition
                  (toValue (newLayer p [(k_delay, Some (UnitValue n u))])));
        discriminate E.
Qed.

(** X5: a key other than Enter and Escape only has its propagation
    stopped: the state is kept, nothing is committed or deleted and the
    default action of the key is not prevented. *)
Theorem other_keys_only_stop_propagation : forall p iv key,
  (key =? "Enter") = false ->
  (key =? "Escape") = false ->
  onEvent p iv (TextAreaKeyDown key) = [StopPropagation] /\
  step p iv (TextAreaKeyDown key) = iv.
Proof.
  intros p iv key HE HS. unfold step. cbn [onEvent]. unfold onKeyDown.
  rewrite HE, HS. split; reflexivity.
Qed.

(** X6: a commit request settles the state.  After one commit request
    (blur or Enter), a second one, with whatever props and options, leaves
    the state as the first left it, and it hands [onEditLayer] the same
    layers again: a repeated commit is not suppressed. *)
Theorem commit_request_settles : forall p p' iv o o',
  let s := applyEffects iv (handleComplete p iv o) in
  applyEffects s (handleComplete p' s o') = s /\
  map commitLayers (commits (handleComplete p' s o')) =
    map commitLayers (commits (handleComplete p iv o)) /\
  step p' (step p iv TextAreaBlur) (TextAreaKeyDown "Enter") =
    step p iv TextAreaBlur.
Proof.
  intros p p' iv o o'.
  assert (H : forall q q' a a',
            applyEffects (applyEffects iv (handleComplete q iv a))
              (handleComplete q' (applyEffects iv (handleComplete q iv a)) a')
            = applyEffects iv (handleComplete q iv a)).
  { intros q q' a a'. unfold handleComplete.
    destruct iv as [b|]; [|reflexivity].
    destruct (parseTransition (buffer_text b)) as [ls|v] eqn:E.
    - cbn [applyEffects fold_left]. rewrite E. reflexivity.
    - cbn [applyEffects fold_left buffer_text]. rewrite E. reflexivity. }
  split; [apply H|]. split.
  - unfold handleComplete. destruct iv as [b|]; [|reflexivity].
    destruct (parseTransition (buffer_text b)) as [ls|v] eqn:E.
    + cbn [applyEffects fold_left]. rewrite E. reflexivity.
    + cbn [applyEffects fold_left buffer_text]. rewrite E. reflexivity.
  - unfold step. cbn [onEvent]. unfold onKeyDown.
    cbn [String.eqb Ascii.eqb Bool.eqb].
    rewrite !applyEffects_app.
    exact (H p p' (mkOptions true) (mkOptions false)).
Qed.

(** X7: typing a text and then leaving the text area.  Whatever the state
    was, the outcome depends on the typed text alone: a text that parses is
    kept as intermediate value and its layers are committed once, as an
    ephemeral update; a text that does not parse is kept as invalid value
    and nothing is committed. *)
Theorem typing_then_blur : forall iv p p' t,
  run iv [(p, TextAreaChange t); (p', TextAreaBlur)] =
  match parseTransition t with
  | Layers layers =>
      (Some (IntermediateValue t),
       [SetIntermediateValue (Some (IntermediateValue t));
        OnEditLayer (index p') layers (mkOptions true)])
  | Invalid _ =>
      (Some (InvalidValue t),
       [SetIntermediateValue (Some (IntermediateValue t));
        SetIntermediateValue (Some (InvalidValue t))])
  end.
Proof.
  intros iv p p' t. rewrite run_cons.
  change (step p iv (TextAreaChange t)) with (Some (IntermediateValue t)).
  rewrite run_cons. cbn [run fst snd onEvent]. unfold step. cbn [onEvent].
  unfold handleComplete, handleChange. cbn [buffer_text].
  destruct (parseTransition t); reflexivity.
Qed.


Lemma handleComplete_shape : forall p iv o,
  (iv = None /\ handleComplete p iv o = []) \/
  (exists b v, iv = Some b /\ parseTransition (buffer_text b) = Invalid v /\
     handleComplete p iv o =
     [SetIntermediateValue (Some (InvalidValue (buffer_text b)))]) \/
  (exists b layers, iv = Some b /\
     parseTransition (buffer_text b) = Layers layers /\
     handleComplete p iv o = [OnEditLayer (index p) layers o]).
Proof.
  intros p iv o. unfold handleComplete. destruct iv as [b|].
  - destruct (parseTransition (buffer_text b)) as [ls|v] eqn:E.
    + right. right. exists b, ls. repeat split. exact E.
    + right. left. exists b, v. repeat split. exact E.
  - left. split; reflexivity.
Qed.

Lemma handlePropertyUpdate_shape : forall p params options,
  (exists v, parseTransition (toValue (newLayer p params)) = Invalid v /\
     handlePropertyUpdate p params options =
     [SetIntermediateValue
        (Some (InvalidValue (toValue (newLayer p params))))]) \/
  (exists layers o,
     parseTransition (toValue (newLayer p params)) = Layers layers /\
     handlePropertyUpdate p params options =
     [SetIntermediateValue
        (Some (IntermediateValue (toValue (newLayer p params))));
      OnEditLayer (index p) layers o]).
Proof.
  intros p params options. unfold handlePropertyUpdate.
  destruct (parseTransition (toValue (newLayer p params))) as [ls|v] eqn:E.
  - right. eexists. eexists. split; reflexivity.
  - left. exists v. split; reflexivity.
Qed.

(** The three things one event can amount to: no commit and no deletion;
    one commit, of the layers parsed from the text shown afterwards; one
    deletion that clears the buffer. *)
Lemma onEvent_shape : forall p iv e,
  (commits (onEvent p iv e) = [] /\ deletions (onEvent p iv e) = [] /\
   (List.length (stateUpdates (onEvent p iv e)) <= 1)%nat) \/
  (exists layers o,
     commits (onEvent p iv e) = [(index p, layers, o)] /\
     deletions (onEvent p iv e) = [] /\
     (List.length (stateUpdates (onEvent p iv e)) <= 1)%nat /\
     parseTransition (textAreaValue (step p iv e)) = Layers layers) \/
  (commits (onEvent p iv e) = [] /\
   deletions (onEvent p iv e) =
     [mkDeleteArgs (currentStyle p) (createBatchUpdate p) (index p)
                   (mkOptions true)] /\
   stateUpdates (onEvent p iv e) = [None] /\
   step p iv e = None /\ iv <> None).
Proof.
  intros p iv e.
  assert (Hu : forall params options,
            (commits (handlePropertyUpdate p params options) = [] /\
             deletions (handlePropertyUpdate p params options) = [] /\
             (List.length
                (stateUpdates (handlePropertyUpdate p params options))
              <= 1)%nat) \/
            (exists layers o,
               commits (handlePropertyUpdate p params options)
                 = [(index p, layers, o)] /\
               deletions (handlePropertyUpdate p params options) = [] /\
               (List.length
                  (stateUpdates (handlePropertyUpdate p params options))
                <= 1)%nat /\
               parseTransition
                 (textAreaValue
                    (applyEffects iv (handlePropertyUpdate p params options)))
                 = Layers layers)).
  { intros params options.
    destruct (handlePropertyUpdate_shape p params options)
      as [[v [E ->]]|[ls [o [E ->]]]].
    - left. cbn. auto.
    - right. exists ls, o. cbn. auto. }
  assert (Hc : forall o,
            (commits (handleComplete p iv o) = [] /\
             deletions (handleComplete p iv o) = [] /\
             (List.length (stateUpdates (handleComplete p iv o)) <= 1)%nat) \/
            (exists layers,
               commits (handleComplete p iv o) = [(index p, layers, o)] /\
               deletions (handleComplete p iv o) = [] /\
               stateUpdates (handleComplete p iv o) = [] /\
               parseTransition (textAreaValue iv) = Layers layers)).
  { intros o.
    destruct (handleComplete_shape p iv o)
      as [[-> ->]|[[b [v [-> [E ->]]]]|[b [ls [-> [E ->]]]]]].
    - left. cbn. auto.
    - left. cbn. auto.
    - right. exists ls. cbn. auto. }
  unfold step. destruct e; cbn [onEvent].
  - left. cbn. auto.
  - destruct (Hc (mkOptions true)) as [H|[ls [H1 [H2 [H3 H4]]]]].
    + left. exact H.
    + right. left. exists ls, (mkOptions true).
      assert (Hs : applyEffects iv (handleComplete p iv (mkOptions true)) = iv).
      { destruct (handleComplete_shape p iv (mkOptions true))
          as [[_ ->]|[[b [v [_ [_ E]]]]|[b [l [_ [_ ->]]]]]];
          try reflexivity.
        rewrite E in H1. discriminate H1. }
      rewrite Hs, H3. cbn. auto.
  - unfold onKeyDown.
    rewrite !commits_app, !deletions_app, !stateUpdates_app,
      !applyEffects_app.
    destruct (key =? "Enter") eqn:KE.
    + rewrite (enter_is_not_escape key KE).
      rewrite !commits_app, !deletions_app, !stateUpdates_app,
        !applyEffects_app.
      destruct (Hc (mkOptions false)) as [[H1 [H2 H3]]|[ls [H1 [H2 [H3 H4]]]]].
      * left. rewrite H1, H2. cbn. rewrite !app_nil_r. auto.
      * right. left. exists ls, (mkOptions false).
        rewrite H1, H2, H3.
        assert (Hs : applyEffects iv (handleComplete p iv (mkOptions false))
                     = iv).
        { destruct (handleComplete_shape p iv (mkOptions false))
            as [[_ ->]|[[b [v [_ [_ E]]]]|[b [l [_ [_ ->]]]]]];
            try reflexivity.
          rewrite E in H1. discriminate H1. }
        cbn. rewrite Hs. auto.
    + destruct (key =? "Escape").
      * destruct iv as [b|].
        -- right. right. cbn. repeat split. discriminate.
        -- left. cbn. auto.
      * left. cbn. auto.
  - destruct (Hu params options) as [H|H]; auto.
  - destruct (Hu params options) as [H|H]; auto.
  - destruct (Hu [(k_duration, duration p)] None) as [H|H]; auto.
  - unfold setUnitField. destruct value as [[n u|w|w]|];
      try (left; cbn; auto; fail).
    destruct (Hu [(k_duration, Some (UnitValue n u))] options) as [H|H]; auto.
  - destruct (Hu [(k_delay, delay p)] None) as [H|H]; auto.
  - unfold setUnitField. destruct value as [[n u|w|w]|];
      try (left; cbn; auto; fail).
    destruct (Hu [(k_delay, Some (UnitValue n u))] options) as [H|H]; auto.
Qed.


Lemma key_or_blur_unset : forall p e,
  isKeyOrBlur e = true ->
  commits (onEvent p None e) = [] /\ deletions (onEvent p None e) = [] /\
  stateUpdates (onEvent p None e) = [] /\ step p None e = None.
Proof.
  intros p e H. destruct e; try discriminate H.
  - repeat split.
  - unfold step. cbn [onEvent]. unfold onKeyDown, handleComplete.
    destruct (key =? "Enter"), (key =? "Escape"); repeat split.
Qed.

Lemma run_unset_key_or_blur : forall inputs,
  Forall (fun pe => isKeyOrBlur (snd pe) = true) inputs ->
  fst (run None inputs) = None /\
  commits (snd (run None inputs)) = [] /\
  deletions (snd (run None inputs)) = [] /\
  stateUpdates (snd (run None inputs)) = [].
Proof.
  induction inputs as [|[p e] rest IH]; intros H.
  - repeat split.
  - inversion H as [|x l He Hrest]; subst.
    destruct (key_or_blur_unset p e He) as [Hc [Hd [Hs Hn]]].
    destruct (IH Hrest) as [I1 [I2 [I3 I4]]].
    rewrite run_cons. cbn [fst snd].
    rewrite commits_app, deletions_app, stateUpdates_app, Hn.
    rewrite Hc, Hd, Hs, I2, I3, I4. repeat split. exact I1.
Qed.

(** X8: in every state the component can reach, a text area coloured as an
    error shows a text that [parseTransition] rejects. *)
Theorem error_colour_implies_rejected : forall p0 iv,
  reachable p0 iv ->
  textAreaColor iv = Some "error" ->
  exists v, parseTransition (textAreaValue iv) = Invalid v.
Proof.
  intros p0 iv Hr Hc. destruct iv as [[t|t]|]; try discriminate Hc.
  apply (reachable_invalid_unparsable p0 _ Hr t). reflexivity.
Qed.

(** X9: one event makes at most one [setIntermediateValue] call, at most
    one [onEditLayer] call and at most one [deleteTransitionLayer] call,
    never a commit together with a deletion, and both calls carry the index
    of this layer. *)
Theorem event_call_bounds : forall p iv e,
  (List.length (stateUpdates (onEvent p iv e)) <= 1)%nat /\
  (List.length (commits (onEvent p iv e)) <= 1)%nat /\
  (List.length (deletions (onEvent p iv e)) <= 1)%nat /\
  (commits (onEvent p iv e) = [] \/ deletions (onEvent p iv e) = []) /\
  Forall (fun c => fst (fst c) = index p) (commits (onEvent p iv e)) /\
  Forall (fun d => del_index d = index p) (deletions (onEvent p iv e)).
Proof.
  intros p iv e.
  destruct (onEvent_shape p iv e)
    as [[Hc [Hd Hs]]|[[ls [o [Hc [Hd [Hs _]]]]]|[Hc [Hd [Hs _]]]]];
    rewrite Hc, Hd; try rewrite Hs; cbn;
    repeat split; auto; repeat constructor.
Qed.

(** X10: whatever an event commits is the parse of the text the text area
    shows after that event, and it is committed under the index of this
    layer. *)
Theorem committed_layers_match_text : forall p iv e c,
  In c (commits (onEvent p iv e)) ->
  parseTransition (textAreaValue (step p iv e)) = Layers (commitLayers c) /\
  fst (fst c) = index p.
Proof.
  intros p iv e c H.
  destruct (onEvent_shape p iv e)
    as [[Hc _]|[[ls [o [Hc [_ [_ Hp]]]]]|[Hc _]]];
    rewrite Hc in H; try contradiction.
  destruct H as [<-|[]]. split; [exact Hp|reflexivity].
Qed.

(** X11: once the buffer is cleared, the text area is inert: blur and key
    presses, Enter and Escape included, commit nothing, delete nothing and
    leave the state [undefined], however many of them follow. *)
Theorem unset_buffer_is_inert : forall inputs,
  Forall (fun pe => isKeyOrBlur (snd pe) = true) inputs ->
  fst (run None inputs) = None /\
  commits (snd (run None inputs)) = [] /\
  deletions (snd (run None inputs)) = [] /\
  stateUpdates (snd (run None inputs)) = [].
Proof. exact run_unset_key_or_blur. Qed.

(** X12: a buffer is deleted at most once.  Along any sequence of blurs and
    key presses, from any state, [deleteTransitionLayer] is called at most
    one time, however often Escape is pressed. *)
Theorem escape_deletes_at_most_once : forall inputs iv,
  Forall (fun pe => isKeyOrBlur (snd pe) = true) inputs ->
  (List.length (deletions (snd (run iv inputs))) <= 1)%nat.
Proof.
  induction inputs as [|[p e] rest IH]; intros iv H.
  - cbn. lia.
  - inversion H as [|x l He Hrest]; subst.
    rewrite run_cons. cbn [snd]. rewrite deletions_app, length_app.
    destruct (onEvent_shape p iv e)
      as [[_ [Hd _]]|[[ls [o [_ [Hd _]]]]|[_ [Hd [_ [Hn _]]]]]];
      rewrite Hd.
    + apply (IH (step p iv e) Hrest).
    + apply (IH (step p iv e) Hrest).
    + rewrite Hn.
      destruct (run_unset_key_or_blur rest Hrest) as [_ [_ [Hr _]]].
      rewrite Hr. cbn. lia.
Qed.


(** X13: a field edit discards the free text.  After typing a text and
    then editing a field, the text shown is the serialized tuple and the
    calls of the field edit are those it makes from any other state: the
    typed text is neither parsed nor committed. *)
Theorem typing_then_field_edit : forall iv p p' t params options,
  textAreaValue
    (fst (run iv [(p, TextAreaChange t);
                  (p', PropertySelection params options)]))
    = toValue (newLayer p' params) /\
  snd (run iv [(p, TextAreaChange t);
               (p', PropertySelection params options)])
    = (SetIntermediateValue (Some (IntermediateValue t))
       :: handlePropertyUpdate p' params options)%list /\
  commits (snd (run iv [(p, TextAreaChange t);
                        (p', PropertySelection params options)]))
    = commits (onEvent p' iv (PropertySelection params options)).
Proof.
  intros iv p p' t params options.
  rewrite !run_cons. cbn [run fst snd onEvent]. rewrite app_nil_r.
  unfold step. cbn [onEvent]. unfold handleChange, handlePropertyUpdate.
  destruct (parseTransition (toValue (newLayer p' params)));
    repeat split.
Qed.

End Component.

(** ** Concrete runs *)

(** Whatever the configured defaults are, the tuple of the example below
    differs from the one the worded merge yields: it has three fields, the
    other four. *)
Lemma default_substitution_never_matches : forall d : Defaults,
  newLayer sample_extractTransitionProperties
           (mkProps 0 (mkTuple [opacity; ms 200]) "opacity 200ms" tt tt)
           [(k_delay, Some (ms 50))]
    <> specNewLayer d
                    (sample_extractTransitionProperties
                       (mkTuple [opacity; ms 200]))
                    [(k_delay, Some (ms 50))].
Proof.
  intros d H. apply (f_equal (fun t => List.length (tuple_value t))) in H.
  discriminate H.
Qed.

(** C1 as stated fails on its own example: with current fields
    [{property: opacity, duration: 200ms}] and the update [{delay: 50ms}]
    the code serializes three fields, property, duration and delay; the
    merge worded in the specification would add the default timing. *)
Lemma default_substitution_counterexample :
  extracted sample_extractTransitionProperties
            (mkProps 0 (mkTuple [opacity; ms 200]) "opacity 200ms" tt tt)
    = [(k_property, Some opacity); (k_duration, Some (ms 200));
       (k_timing, None); (k_delay, None)] /\
  newLayer sample_extractTransitionProperties
           (mkProps 0 (mkTuple [opacity; ms 200]) "opacity 200ms" tt tt)
           [(k_delay, Some (ms 50))]
    = mkTuple [opacity; ms 200; ms 50] /\
  specNewLayer sample_defaults
               (sample_extractTransitionProperties
                  (mkTuple [opacity; ms 200]))
               [(k_delay, Some (ms 50))]
    = mkTuple [opacity; ms 200; ms 50; KeywordValue "ease"] /\
  newLayer sample_extractTransitionProperties
           (mkProps 0 (mkTuple [opacity; ms 200]) "opacity 200ms" tt tt)
           [(k_delay, Some (ms 50))]
    <> specNewLayer sample_defaults
                    (sample_extractTransitionProperties
                       (mkTuple [opacity; ms 200]))
                    [(k_delay, Some (ms 50))] /\
  handlePropertyUpdate sample_parseTransition
                       sample_extractTransitionProperties sample_toValue
                       (mkProps 0 (mkTuple [opacity; ms 200])
                                "opacity 200ms" tt tt)
                       [(k_delay, Some (ms 50))] None
    = [SetIntermediateValue (Some (IntermediateValue "opacity 200ms 50ms"));
       OnEditLayer 0 [mkTuple [opacity; ms 200; ms 50]] (mkOptions false)].
Proof.
  split; [reflexivity|]. split; [reflexivity|]. split; [reflexivity|].
  split; [|reflexivity].
  vm_compute. intros H. discriminate H.
Qed.

(** The merge of C1 on the example: the provided delay is taken, the timing
    that is not provided stays as it was. *)
Lemma handlePropertyUpdate_merges_fields_witness :
  obj_get k_delay
          (mergedFields sample_extractTransitionProperties
             (mkProps 0 (mkTuple [opacity; ms 200]) "opacity 200ms" tt tt)
             [(k_delay, Some (ms 50))])
    = Some (ms 50) /\
  obj_get k_timing
          (mergedFields sample_extractTransitionProperties
             (mkProps 0 (mkTuple [opacity; ms 200]) "opacity 200ms" tt tt)
             [(k_delay, Some (ms 50))])
    = obj_get k_timing
        (extracted sample_extractTransitionProperties
           (mkProps 0 (mkTuple [opacity; ms 200]) "opacity 200ms" tt tt)).
Proof.
  destruct (handlePropertyUpdate_merges_fields
              sample_parseTransition sample_extractTransitionProperties
              sample_toValue
              (mkProps 0 (mkTuple [opacity; ms 200]) "opacity 200ms" tt tt)
              [(k_delay, Some (ms 50))] None) as [Hp [Hn _]].
  split.
  - apply Hp. reflexivity.
  - apply Hn. reflexivity.
Defined.

(** C2 on a rejected buffer text and on a rejected serialization (the
    empty tuple). *)
Lemma invalid_parse_marks_buffer_witness :
  handleComplete sample_parseTransition
                 (mkProps 2 (mkTuple [opacity]) "opacity" tt tt)
                 (Some (IntermediateValue "not a transition"))
                 (mkOptions true)
    = [SetIntermediateValue (Some (InvalidValue "not a transition"))] /\
  handlePropertyUpdate sample_parseTransition
                       sample_extractTransitionProperties sample_toValue
                       (mkProps 2 (mkTuple []) "" tt tt) [] None
    = [SetIntermediateValue (Some (InvalidValue ""))].
Proof.
  split.
  - destruct (@invalid_parse_marks_buffer unit unit
                sample_parseTransition sample_extractTransitionProperties
                sample_toValue "not a transition" "not a transition"
                eq_refl) as [Hc _].
    destruct (Hc (mkProps 2 (mkTuple [opacity]) "opacity" tt tt)
                 (IntermediateValue "not a transition") (mkOptions true)
                 eq_refl) as [Ht _].
    exact Ht.
  - destruct (@invalid_parse_marks_buffer unit unit
                sample_parseTransition sample_extractTransitionProperties
                sample_toValue "" "" eq_refl) as [_ Hu].
    destruct (Hu (mkProps 2 (mkTuple []) "" tt tt) None [] None
                 eq_refl) as [Ht _].
    exact Ht.
Defined.

(** C3 on a buffer text that parses. *)
Lemma handleComplete_commit_witness :
  handleComplete sample_parseTransition
                 (mkProps 2 (mkTuple [opacity]) "opacity" tt tt)
                 (Some (IntermediateValue "opacity 200ms"))
                 (mkOptions true)
    = [OnEditLayer 2 [mkTuple [opacity; ms 200]] (mkOptions true)].
Proof.
  destruct (handleComplete_commit
              sample_parseTransition
              (mkProps 2 (mkTuple [opacity]) "opacity" tt tt)
              (mkOptions true)) as [_ H].
  destruct (H (IntermediateValue "opacity 200ms")
              [mkTuple [opacity; ms 200]] eq_refl) as [Ht _].
  exact Ht.
Defined.

(** C6 on a buffer text that parses. *)
Lemma blur_and_enter_commit_alike_witness :
  commits (onEvent sample_parseTransition sample_extractTransitionProperties
                   sample_toValue
                   (mkProps 2 (mkTuple [opacity]) "opacity" tt tt)
                   (Some (IntermediateValue "opacity 200ms")) TextAreaBlur)
    = [(2%nat, [mkTuple [opacity; ms 200]], mkOptions true)] /\
  commits (onEvent sample_parseTransition sample_extractTransitionProperties
                   sample_toValue
                   (mkProps 2 (mkTuple [opacity]) "opacity" tt tt)
                   (Some (IntermediateValue "opacity 200ms"))
                   (TextAreaKeyDown "Enter"))
    = [(2%nat, [mkTuple [opacity; ms 200]], mkOptions false)].
Proof.
  destruct (blur_and_enter_commit_alike
              sample_parseTransition sample_extractTransitionProperties
              sample_toValue
              (mkProps 2 (mkTuple [opacity]) "opacity" tt tt)
              (IntermediateValue "opacity 200ms")
              [mkTuple [opacity; ms 200]] eq_refl) as [Hb [He _]].
  split; [exact Hb | exact He].
Defined.

(** X4 on a press of Escape with a buffer. *)
Lemma buffer_cleared_only_by_escape_witness :
  Some (IntermediateValue "opacity") = None \/
  TextAreaKeyDown "Escape" = TextAreaKeyDown "Escape".
Proof.
  exact (buffer_cleared_only_by_escape
           sample_parseTransition sample_extractTransitionProperties
           sample_toValue
           (mkProps 2 (mkTuple [opacity]) "opacity" tt tt)
           (Some (IntermediateValue "opacity"))
           (TextAreaKeyDown "Escape") eq_refl).
Defined.

(** X5 on the key [a]. *)
Lemma other_keys_only_stop_propagation_witness :
  onEvent sample_parseTransition sample_extractTransitionProperties
          sample_toValue
          (mkProps 2 (mkTuple [opacity]) "opacity" tt tt)
          (Some (IntermediateValue "opacity")) (TextAreaKeyDown "a")
    = [StopPropagation].
Proof.
  destruct (other_keys_only_stop_propagation
              sample_parseTransition sample_extractTransitionProperties
              sample_toValue
              (mkProps 2 (mkTuple [opacity]) "opacity" tt tt)
              (Some (IntermediateValue "opacity")) "a"
              eq_refl eq_refl) as [H _].
  exact H.
Defined.

(** X8 after typing a rejected text and leaving the text area. *)
Lemma error_colour_implies_rejected_witness :
  exists v, sample_parseTransition "not a transition" = Invalid v.
Proof.
  apply (error_colour_implies_rejected
           sample_parseTransition sample_extractTransitionProperties
           sample_toValue
           (mkProps 2 (mkTuple [opacity]) "opacity" tt tt)
           (step sample_parseTransition sample_extractTransitionProperties
                 sample_toValue
                 (mkProps 2 (mkTuple [opacity]) "opacity" tt tt)
                 (step sample_parseTransition
                       sample_extractTransitionProperties sample_toValue
                       (mkProps 2 (mkTuple [opacity]) "opacity" tt tt)
                       (initialState
                          (mkProps 2 (mkTuple [opacity]) "opacity" tt tt))
                       (TextAreaChange "not a transition"))
                 TextAreaBlur)).
  - apply reachable_step. apply reachable_step. apply reachable_init.
  - reflexivity.
Defined.

(** X10 on a blur with a buffer text that parses. *)
Lemma committed_layers_match_text_witness :
  sample_parseTransition "opacity 200ms"
    = Layers [mkTuple [opacity; ms 200]] /\
  2%nat = 2%nat.
Proof.
  exact (committed_layers_match_text
           sample_parseTransition sample_extractTransitionProperties
           sample_toValue
           (mkProps 2 (mkTuple [opacity]) "opacity" tt tt)
           (Some (IntermediateValue "opacity 200ms")) TextAreaBlur
           (2%nat, [mkTuple [opacity; ms 200]], mkOptions true)
           (or_introl eq_refl)).
Defined.

(** X11 on Enter, blur and Escape with no buffer. *)
Lemma unset_buffer_is_inert_witness :
  commits
    (snd (run sample_parseTransition sample_extractTransitionProperties
              sample_toValue None
              [(mkProps 2 (mkTuple [opacity]) "opacity" tt tt,
                TextAreaKeyDown "Enter");
               (mkProps 2 (mkTuple [opacity]) "opacity" tt tt, TextAreaBlur);
               (mkProps 2 (mkTuple [opacity]) "opacity" tt tt,
                TextAreaKeyDown "Escape")]))
    = [].
Proof.
  destruct (unset_buffer_is_inert
              sample_parseTransition sample_extractTransitionProperties
              sample_toValue
              [(mkProps 2 (mkTuple [opacity]) "opacity" tt tt,
                TextAreaKeyDown "Enter");
               (mkProps 2 (mkTuple [opacity]) "opacity" tt tt, TextAreaBlur);
               (mkProps 2 (mkTuple [opacity]) "opacity" tt tt,
                TextAreaKeyDown "Escape")]) as [_ [H _]].
  - repeat constructor.
  - exact H.
Defined.

(** X12 on Escape, blur and Escape again, starting with a buffer. *)
Lemma escape_deletes_at_most_once_witness :
  (List.length
     (deletions
        (snd (run sample_parseTransition sample_extractTransitionProperties
                  sample_toValue (Some (IntermediateValue "opacity"))
                  [(mkProps 2 (mkTuple [opacity]) "opacity" tt tt,
                    TextAreaKeyDown "Escape");
                   (mkProps 2 (mkTuple [opacity]) "opacity" tt tt,
                    TextAreaBlur);
                   (mkProps 2 (mkTuple [opacity]) "opacity" tt tt,
                    TextAreaKeyDown "Escape")])))
   <= 1)%nat.
Proof.
  apply (escape_deletes_at_most_once
           sample_parseTransition sample_extractTransitionProperties
           sample_toValue).
  repeat constructor.
Defined.
